(** * The FastAPI wiki page: its Python snippets, embedded and checked

    [wiki/web_development/fast-api.py] is a markdown page whose fenced
    [python] blocks declare two pydantic classes and eight [async def]
    functions.  This development embeds those declarations: Python values as
    an inductive type, floats as IEEE 754 binary64 (the Standard Library's
    [SpecFloat]), dictionaries as [gmap string value], and the body of an
    [async def] as a small resumable computation that can return, raise, or
    suspend at a [yield]. *)

From Stdlib Require Import ZArith Bool List Ascii.
From Stdlib Require Import Floats.SpecFloat.
From stdpp Require Import gmap strings.

Import ListNotations.
Local Open Scope string_scope.

(** ** Python values *)

(** A Python [float] is a binary64 number. *)
Definition float : Type := spec_float.

Definition prec : Z := 53.
Definition emax : Z := 1024.

Definition float_add (x y : float) : float := SFadd prec emax x y.

(** [float(n)] for an [int]: correctly rounded, to nearest even. *)
Definition float_of_int (n : Z) : float := binary_normalize prec emax n 0 false.

(** The float [m * 2^e], used to write literals such as [2.5]. *)
Definition float_lit (m e : Z) : float := binary_normalize prec emax m e false.

(** Python's [==] on floats: [-0.0 == 0.0], and [nan] equals nothing. *)
Definition float_eqb (x y : float) : bool := SFeqb x y.

Definition float_is_zero (x : float) : bool :=
  match x with
  | S754_zero _ => true
  | _ => false
  end.

Inductive value : Type :=
| VNone
| VBool (b : bool)
| VInt (n : Z)
| VFloat (x : float)
| VStr (s : string)
| VExt (repr : string).
(** [VExt] stands for an object built by the external framework, such as the
    marker [Depends(get_db)] used as a parameter default. *)

#[global] Instance spec_float_eq_dec : EqDecision spec_float.
Proof. solve_decision. Defined.

#[global] Instance value_eq_dec : EqDecision value.
Proof. solve_decision. Defined.

Definition of_optional {A : Type} (inj : A -> value) (o : option A) : value :=
  match o with
  | Some a => inj a
  | None => VNone
  end.

(** Truth value testing, as [bool(v)] does it. *)
Definition truthy (v : value) : bool :=
  match v with
  | VNone => false
  | VBool b => b
  | VInt n => negb (n =? 0)%Z
  | VFloat x => negb (float_is_zero x)
  | VStr s => negb (String.eqb s "")
  | VExt _ => true
  end.

(** [a or b] evaluates to [a] when [a] is true, and to [b] otherwise. *)
Definition py_or (a b : value) : value := if truthy a then a else b.

(** ** Exceptions and fallible expressions *)

Inductive exn : Type :=
| TypeError
| OverflowError.

Inductive result (A : Type) : Type :=
| Ok (a : A)
| Err (e : exn).
Arguments Ok {A} a.
Arguments Err {A} e.

(** [int] to [float] conversion inside arithmetic: an [int] beyond the range
    of binary64 raises [OverflowError]. *)
Definition int_to_float (n : Z) : result float :=
  match float_of_int n with
  | S754_infinity _ => Err OverflowError
  | x => Ok x
  end.

Definition int_of_bool (b : bool) : Z := if b then 1%Z else 0%Z.

(** The numeric operand of [+]; [bool] is a subclass of [int]. *)
Inductive number : Type :=
| NInt (n : Z)
| NFloat (x : float).

Definition as_number (v : value) : option number :=
  match v with
  | VBool b => Some (NInt (int_of_bool b))
  | VInt n => Some (NInt n)
  | VFloat x => Some (NFloat x)
  | _ => None
  end.

(** The binary [+] operator. *)
Definition py_add (a b : value) : result value :=
  match a, b with
  | VStr s, VStr t => Ok (VStr (s ++ t))
  | _, _ =>
      match as_number a, as_number b with
      | Some (NInt m), Some (NInt n) => Ok (VInt (m + n))
      | Some (NFloat x), Some (NFloat y) => Ok (VFloat (float_add x y))
      | Some (NFloat x), Some (NInt n) =>
          match int_to_float n with
          | Ok y => Ok (VFloat (float_add x y))
          | Err e => Err e
          end
      | Some (NInt m), Some (NFloat y) =>
          match int_to_float m with
          | Ok x => Ok (VFloat (float_add x y))
          | Err e => Err e
          end
      | _, _ => Err TypeError
      end
  end.

(** A dictionary display [{k1: v1, k2: v2, ...}]: the entries are stored from
    left to right, a later key replacing an earlier equal one. *)
Definition dict_display (entries : list (string * value)) : gmap string value :=
  foldl (fun d kv => <[kv.1 := kv.2]> d) ∅ entries.

(** ** Bodies of [async def] functions *)

(** What the driver of a suspended body does next: it sends a value in, or
    it throws an exception in at the [yield]. *)
Inductive resume : Type :=
| Send (v : value)
| Throw (e : exn).

Inductive coro (R : Type) : Type :=
| Return (r : R)
| Raise (e : exn)
| Yield (v : value) (k : resume -> coro R).
Arguments Return {R} r.
Arguments Raise {R} e.
Arguments Yield {R} v k.

Fixpoint coro_bind {A B : Type} (c : coro A) (f : A -> coro B) : coro B :=
  match c with
  | Return a => f a
  | Raise e => Raise e
  | Yield v k => Yield v (fun r => coro_bind (k r) f)
  end.

#[global] Instance coro_mret : MRet coro := fun _ r => Return r.
#[global] Instance coro_mbind : MBind coro := fun _ _ f c => coro_bind c f.

Definition eval {A : Type} (r : result A) : coro A :=
  match r with
  | Ok a => Return a
  | Err e => Raise e
  end.

(** The expression [yield v]. *)
Definition yield_ (v : value) : coro value :=
  Yield v (fun r =>
    match r with
    | Send x => Return x
    | Throw e => Raise e
    end).

Definition pass : coro unit := Return tt.

(** [try: body finally: final]: [final] runs however [body] ends, and the
    way [body] ended is kept. *)
Fixpoint try_finally {R : Type} (body : coro R) (final : coro unit) : coro R :=
  match body with
  | Return r => _ ← final; Return r
  | Raise e => _ ← final; Raise e
  | Yield v k => Yield v (fun r => try_finally (k r) final)
  end.

(** How a body ended. *)
Inductive outcome (R : Type) : Type :=
| Returned (r : R)
| Raised (e : exn).
Arguments Returned {R} r.
Arguments Raised {R} e.

(** Drive a body to its end, answering every suspension with [None] (what
    [__anext__] does): the values it yielded on the way, and how it ended. *)
Fixpoint run {R : Type} (c : coro R) : list value * outcome R :=
  match c with
  | Return r => ([], Returned r)
  | Raise e => ([], Raised e)
  | Yield v k => let '(vs, o) := run (k (Send VNone)) in (v :: vs, o)
  end.

Definition yields {R : Type} (c : coro R) : list value := (run c).1.
Definition await {R : Type} (c : coro R) : outcome R := (run c).2.

Definition raises {R : Type} (c : coro R) : bool :=
  match await c with
  | Raised _ => true
  | Returned _ => false
  end.

(** ** Feature 2: type hints (lines 17-23) *)

Module TypeHints.

(** [async def read_item(item_id: int, q: str = None)]; an omitted [q] is
    [None] here and takes the default, which is Python's [None]. *)
Definition read_item (item_id : Z) (q : option string) : coro (gmap string value) :=
  let q := of_optional VStr q in
  Return (dict_display [("item_id", VInt item_id); ("q", q)]).

End TypeHints.

(** ** Feature 4: asynchronous support (lines 41-43) *)

Module AsyncSupport.

Definition read_item (item_id : Z) : coro (gmap string value) :=
  Return (dict_display [("item_id", VInt item_id)]).

End AsyncSupport.

(** ** Feature 5: pydantic models (lines 53-62) *)

Module PydanticModels.

Record Item : Type := {
  name : string;
  price : float;
  is_offer : option bool
}.

Definition create_item (item : Item) : coro Item := Return item.

End PydanticModels.

(** ** Feature 6: dependency injection (lines 72-83) *)

Module DependencyInjection.

(** An async generator: it ends without a value. *)
Definition get_db : coro unit :=
  let db := VStr "fake_database_session" in
  try_finally (_ ← yield_ db; Return tt) pass.

(** [async def read_users(db=Depends(get_db))] *)
Definition read_users (db : option value) : coro (gmap string value) :=
  let db := default (VExt "Depends(get_db)") db in
  Return (dict_display [("db", db)]).

End DependencyInjection.

(** ** Feature 7: security (lines 93-100) *)

Module Security.

(** [async def read_users_me(token: str = Depends(oauth2_scheme))] *)
Definition read_users_me (token : option string) : coro (gmap string value) :=
  let token := default (VExt "Depends(oauth2_scheme)") (VStr <$> token) in
  Return (dict_display [("token", token)]).

End Security.

(** ** The simple API example (lines 115-138) *)

Module SimpleAPI.

Record Item : Type := {
  name : string;
  description : option string;
  price : float;
  tax : option float
}.

Definition create_item (item : Item) : coro (gmap string value) :=
  price_with_tax ←
    eval (py_add (VFloat (price item))
                 (py_or (of_optional VFloat (tax item)) (VInt 0)));
  Return (dict_display [("name", VStr (name item));
                        ("price_with_tax", price_with_tax)]).

Definition read_item (item_id : Z) (q : option string) : coro (gmap string value) :=
  let q := of_optional VStr q in
  Return (dict_display [("item_id", VInt item_id); ("q", q)]).

End SimpleAPI.


(** ** What the page declares *)

(** The declarations of the fenced code blocks, in page order.  A class is
    listed with its annotated fields, a function with its route decorator. *)

Inductive annotation : Type :=
| AInt
| AStr
| AFloat
| ABool.

Record field_decl : Type := {
  field_name : string;
  field_type : annotation;
  field_default : option value
}.

Record class_decl : Type := {
  class_name : string;
  class_bases : list string;
  class_fields : list field_decl
}.

Inductive http_method : Type :=
| GET
| POST.

Record func_decl : Type := {
  func_name : string;
  func_route : option (http_method * string);
  func_params : list string;
  func_has_yield : bool
}.

Inductive decl : Type :=
| ClassDef (c : class_decl)
| FuncDef (f : func_decl)
| Assign (target callee : string).

Record snippet : Type := {
  first_line : nat;
  language : string;
  decls : list decl
}.

(** [class Item(BaseModel)] of lines 55-58. *)
Definition Item_model : class_decl := {|
  class_name := "Item";
  class_bases := ["BaseModel"];
  class_fields := [
    {| field_name := "name"; field_type := AStr; field_default := None |};
    {| field_name := "price"; field_type := AFloat; field_default := None |};
    {| field_name := "is_offer"; field_type := ABool; field_default := Some VNone |}
  ]
|}.

(** [class Item(BaseModel)] of lines 121-125. *)
Definition Item_simple : class_decl := {|
  class_name := "Item";
  class_bases := ["BaseModel"];
  class_fields := [
    {| field_name := "name"; field_type := AStr; field_default := None |};
    {| field_name := "description"; field_type := AStr; field_default := Some VNone |};
    {| field_name := "price"; field_type := AFloat; field_default := None |};
    {| field_name := "tax"; field_type := AFloat; field_default := Some VNone |}
  ]
|}.

Definition handler (name : string) (m : http_method) (path : string)
    (params : list string) : decl :=
  FuncDef {| func_name := name; func_route := Some (m, path);
             func_params := params; func_has_yield := false |}.

Definition page : list snippet := [
  {| first_line := 16; language := "python";
     decls := [Assign "app" "FastAPI";
               handler "read_item" GET "/items/{item_id}" ["item_id"; "q"]] |};
  {| first_line := 40; language := "python";
     decls := [handler "read_item" GET "/items/{item_id}" ["item_id"]] |};
  {| first_line := 52; language := "python";
     decls := [ClassDef Item_model;
               handler "create_item" POST "/items/" ["item"]] |};
  {| first_line := 71; language := "python";
     decls := [FuncDef {| func_name := "get_db"; func_route := None;
                          func_params := []; func_has_yield := true |};
               handler "read_users" GET "/users/" ["db"]] |};
  {| first_line := 92; language := "python";
     decls := [Assign "oauth2_scheme" "OAuth2PasswordBearer";
               handler "read_users_me" GET "/users/me" ["token"]] |};
  {| first_line := 114; language := "python";
     decls := [Assign "app" "FastAPI";
               ClassDef Item_simple;
               handler "create_item" POST "/items/" ["item"];
               handler "read_item" GET "/items/{item_id}" ["item_id"; "q"]] |};
  {| first_line := 143; language := "bash"; decls := [] |};
  {| first_line := 149; language := "bash"; decls := [] |}
].

Definition all_decls : list decl := concat (map decls page).

Definition classes : list class_decl :=
  omap (fun d => match d with ClassDef c => Some c | _ => None end) all_decls.

Definition functions : list func_decl :=
  omap (fun d => match d with FuncDef f => Some f | _ => None end) all_decls.

(** The fields a caller must supply: those declared without a default. *)
Definition required_fields (c : class_decl) : list string :=
  map field_name (filter (fun f => field_default f = None) (class_fields c)).

(** ** Properties a reader can ask of a function *)

(** A scenario test: an input, and the value expected back. *)
Definition scenario_passes {A R : Type} (f : A -> coro R) (input : A) (expected : R) : Prop :=
  await (f input) = Returned expected.

(** How many times a body suspends before it ends. *)
Definition suspensions {R : Type} (c : coro R) : nat := length (yields c).

Definition float_is_nan (x : float) : bool :=
  match x with
  | S754_nan => true
  | _ => false
  end.

(** Equality of floats as numbers: Python's [==], with [nan] standing for
    itself. *)
Definition float_equal (x y : float) : bool :=
  float_eqb x y || (float_is_nan x && float_is_nan y).

Definition with_description (d : option string) (item : SimpleAPI.Item) : SimpleAPI.Item :=
  {| SimpleAPI.name := SimpleAPI.name item;
     SimpleAPI.description := d;
     SimpleAPI.price := SimpleAPI.price item;
     SimpleAPI.tax := SimpleAPI.tax item |}.

(** A request body used in the scenarios below: a widget at 10.0 with a tax
    of 2.5. *)
Definition widget : SimpleAPI.Item :=
  {| SimpleAPI.name := "Widget";
     SimpleAPI.description := None;
     SimpleAPI.price := float_lit 10 0;
     SimpleAPI.tax := Some (float_lit 5 (-1)) |}.


(** ** Drivers, and variations of a request *)


Definition with_tax (t : option float) (item : SimpleAPI.Item) : SimpleAPI.Item :=
  {| SimpleAPI.name := SimpleAPI.name item;
     SimpleAPI.description := SimpleAPI.description item;
     SimpleAPI.price := SimpleAPI.price item;
     SimpleAPI.tax := t |}.

(** [inf] and [-inf], in either order: the one sum of two numbers that is
    not a number. *)
Definition opposite_infinities (x y : float) : bool :=
  match x, y with
  | S754_infinity a, S754_infinity b => xorb a b
  | _, _ => false
  end.

(** ** Route paths *)

#[global] Instance http_method_eq_dec : EqDecision http_method.
Proof. solve_decision. Defined.

(** The names between braces in a route path: [/items/{item_id}] has the one
    path parameter [item_id]. *)
Fixpoint path_params_from (inside : option string) (path : string) : list string :=
  match path with
  | EmptyString =>
      []
  | String c rest =>
      match inside with
      | None =>
          if Ascii.eqb c "{"%char then path_params_from (Some "") rest
          else path_params_from None rest
      | Some name =>
          if Ascii.eqb c "}"%char then name :: path_params_from None rest
          else path_params_from (Some (name ++ String c "")) rest
      end
  end.

Definition path_params (path : string) : list string := path_params_from None path.

(** The routes one code block registers with its [app]. *)
Definition snippet_routes (s : snippet) : list (http_method * string) :=
  omap (fun d => match d with FuncDef f => func_route f | _ => None end) (decls s).

(** A second request body: a gadget at 20.0, described, without tax. *)
Definition gadget : SimpleAPI.Item :=
  {| SimpleAPI.name := "Gadget";
     SimpleAPI.description := Some "a gadget";
     SimpleAPI.price := float_lit 20 0;
     SimpleAPI.tax := None |}.

(** * Lemmas *)

(** ** Floats and [+] *)

Lemma float_of_int_zero : float_of_int 0 = S754_zero false.
Proof. reflexivity. Qed.

(** Adding [0.0] keeps every float but [-0.0], which becomes [0.0]. *)
Lemma float_add_zero (x : float) :
  float_add x (S754_zero false) = x \/
  (x = S754_zero true /\ float_add x (S754_zero false) = S754_zero false).
Proof.
  destruct x as [[|] | [|] | | s m e]; cbn; auto.
Qed.

Lemma float_eqb_refl (x : float) : float_is_nan x = false -> float_eqb x x = true.
Proof.
  unfold float_eqb, SFeqb.
  destruct x as [s | s | | s m e]; cbn; try done.
  - by destruct s.
  - intros _. rewrite Z.compare_refl, Pos.compare_cont_refl. by destruct s.
Qed.

Lemma float_equal_refl (x : float) : float_equal x x = true.
Proof.
  unfold float_equal. destruct (float_is_nan x) eqn:Hnan.
  - by rewrite orb_true_r.
  - by rewrite float_eqb_refl.
Qed.

Lemma float_equal_add_zero (x : float) :
  float_equal (float_add x (S754_zero false)) x = true.
Proof.
  destruct (float_add_zero x) as [-> | [-> ->]].
  - apply float_equal_refl.
  - reflexivity.
Qed.

(** Without the guard [or 0], a missing tax would make [+] fail. *)
Lemma py_add_float_none (x : float) : py_add (VFloat x) VNone = Err TypeError.
Proof. reflexivity. Qed.

(** What [item.tax or 0] is added to the price. *)
Lemma py_add_price_tax (p : float) (t : option float) :
  py_add (VFloat p) (py_or (of_optional VFloat t) (VInt 0)) =
  Ok (VFloat (float_add p
        match t with
        | Some x => if float_is_zero x then S754_zero false else x
        | None => S754_zero false
        end)).
Proof.
  destruct t as [x|]; [|reflexivity].
  unfold py_or; cbn [of_optional truthy].
  destruct (float_is_zero x); reflexivity.
Qed.

Lemma create_item_response (item : SimpleAPI.Item) :
  SimpleAPI.create_item item =
  Return {[ "name" := VStr (SimpleAPI.name item);
            "price_with_tax" :=
              VFloat (float_add (SimpleAPI.price item)
                match SimpleAPI.tax item with
                | Some x => if float_is_zero x then S754_zero false else x
                | None => S754_zero false
                end) ]}.
Proof.
  unfold SimpleAPI.create_item. rewrite py_add_price_tax. reflexivity.
Qed.

(** ** The generator [get_db] *)

(** [get_db] stops at its [yield] with the session; sent a value it ends, and
    an exception thrown in comes back out once the empty [finally] has run. *)
Lemma get_db_steps :
  exists k,
    DependencyInjection.get_db = Yield (VStr "fake_database_session") k /\
    (forall v, k (Send v) = Return tt) /\
    (forall e, k (Throw e) = Raise e).
Proof. eexists. split; [reflexivity|]. split; reflexivity. Qed.


(** * The claims *)

(** ** C8 *)

(** C8: for every integer [item_id] and every optional string [q], the
    handler [read_item] of [GET /items/{item_id}] (lines 21-23 and 136-138)
    returns the dictionary with exactly the two keys ["item_id"] and ["q"],
    holding [item_id] and [q]; when [q] is not supplied the key ["q"] is
    still there and holds [None]. *)
Theorem read_item_two_key_dict (item_id : Z) (q : option string) :
  let expected : gmap string value :=
    {[ "item_id" := VInt item_id; "q" := of_optional VStr q ]} in
  SimpleAPI.read_item item_id q = Return expected /\
  TypeHints.read_item item_id q = Return expected /\
  dom expected = {[ "item_id"; "q" ]} /\
  size expected = 2 /\
  SimpleAPI.read_item item_id None =
    Return {[ "item_id" := VInt item_id; "q" := VNone ]} /\
  TypeHints.read_item item_id None =
    Return {[ "item_id" := VInt item_id; "q" := VNone ]}.
Proof. repeat split. Qed.

(** ** C9 *)

(** C9: for every [Item] of the simple API example, [create_item] returns
    the dictionary of ["name"] and ["price_with_tax"]; the name is the
    item's name; the total is [price + tax] when the tax is a number other
    than zero, and is the price when the tax is [None] or a zero: it is then
    equal to the price as a number, and is the very same float unless the
    price is [-0.0], for which [-0.0 + 0] gives [0.0]; the description never
    changes the result. *)
Theorem create_item_price_with_tax (item : SimpleAPI.Item) :
  exists total : float,
    SimpleAPI.create_item item =
      Return {[ "name" := VStr (SimpleAPI.name item);
                "price_with_tax" := VFloat total ]} /\
    match SimpleAPI.tax item with
    | Some t =>
        if float_is_zero t
        then float_equal total (SimpleAPI.price item) = true /\
             (total = SimpleAPI.price item \/
              (SimpleAPI.price item = S754_zero true /\ total = S754_zero false))
        else total = float_add (SimpleAPI.price item) t
    | None =>
        float_equal total (SimpleAPI.price item) = true /\
        (total = SimpleAPI.price item \/
         (SimpleAPI.price item = S754_zero true /\ total = S754_zero false))
    end /\
    forall d : option string,
      SimpleAPI.create_item (with_description d item) = SimpleAPI.create_item item.
Proof.
  eexists. split; [apply create_item_response|]. split.
  - destruct (SimpleAPI.tax item) as [t|]; [destruct (float_is_zero t)|];
      try reflexivity;
      (split; [apply float_equal_add_zero | apply float_add_zero]).
  - intros d. rewrite !create_item_response. reflexivity.
Qed.

(** ** C10 *)

(** C10: [create_item] of feature 5 is the identity on [Item] values: awaited
    on any item, whatever its name, price and optional [is_offer], it gives
    that item back, field for field. *)
Theorem create_item_is_identity (item : PydanticModels.Item) :
  PydanticModels.create_item item = Return item /\
  await (PydanticModels.create_item item) = Returned item /\
  forall (n : string) (p : float) (o : option bool),
    await (PydanticModels.create_item
             {| PydanticModels.name := n; PydanticModels.price := p;
                PydanticModels.is_offer := o |}) =
    Returned {| PydanticModels.name := n; PydanticModels.price := p;
                PydanticModels.is_offer := o |}.
Proof. repeat split. Qed.

(** ** C3 *)

(** C3: run on any input of its annotated types, each of the eight functions
    of the page ends normally; none raises an exception. *)
Theorem snippet_functions_never_raise :
  (forall item_id q, raises (TypeHints.read_item item_id q) = false) /\
  (forall item_id, raises (AsyncSupport.read_item item_id) = false) /\
  (forall item, raises (PydanticModels.create_item item) = false) /\
  raises DependencyInjection.get_db = false /\
  (forall db, raises (DependencyInjection.read_users db) = false) /\
  (forall token, raises (Security.read_users_me token) = false) /\
  (forall item, raises (SimpleAPI.create_item item) = false) /\
  (forall item_id q, raises (SimpleAPI.read_item item_id q) = false).
Proof.
  repeat split.
  intros item. rewrite create_item_response. reflexivity.
Qed.

(** ** C7 *)

(** C7: no function of the page routes, validates, resolves a dependency or
    checks a credential.  [read_users_me] hands back whatever token it is
    given, the empty one included, and an omitted token is answered with the
    framework's unresolved marker; [read_users] does the same with [db] and
    never runs [get_db]; [get_db] hands out a fixed string; both
    [create_item] accept every item; and each [read_item] answers with the
    [item_id] it was called with. *)
Theorem handlers_only_echo :
  (forall token : string,
     Security.read_users_me (Some token) = Return {[ "token" := VStr token ]}) /\
  Security.read_users_me None =
    Return {[ "token" := VExt "Depends(oauth2_scheme)" ]} /\
  (forall db : value,
     DependencyInjection.read_users (Some db) = Return {[ "db" := db ]}) /\
  DependencyInjection.read_users None =
    Return {[ "db" := VExt "Depends(get_db)" ]} /\
  yields DependencyInjection.get_db = [VStr "fake_database_session"] /\
  (forall item, await (PydanticModels.create_item item) = Returned item) /\
  (forall item, exists d, await (SimpleAPI.create_item item) = Returned d) /\
  (forall item_id q, exists d,
     await (SimpleAPI.read_item item_id q) = Returned d /\
     d !! "item_id" = Some (VInt item_id)) /\
  (forall item_id, exists d,
     await (AsyncSupport.read_item item_id) = Returned d /\
     d !! "item_id" = Some (VInt item_id)).
Proof.
  repeat split.
  - intros item. rewrite create_item_response. eexists. reflexivity.
  - intros item_id q. eexists. split; reflexivity.
  - intros item_id. eexists. split; reflexivity.
Qed.

(** ** C4 *)

(** C4, as stated, fails: [get_db] suspends.  Driven to its end it stops
    once, at its [yield], handing out the session string. *)
Lemma get_db_suspends_once :
  suspensions DependencyInjection.get_db = 1 /\
  yields DependencyInjection.get_db = [VStr "fake_database_session"].
Proof. split; reflexivity. Qed.

(** C4, amended: no route handler suspends: on every input each of the seven
    handlers runs to its [return] without stopping, since none holds an
    [await] or a [yield]; the generator [get_db] suspends exactly once, at
    its [yield], and ends when it is resumed. *)
Theorem handlers_never_suspend :
  (forall item_id q, suspensions (TypeHints.read_item item_id q) = 0) /\
  (forall item_id, suspensions (AsyncSupport.read_item item_id) = 0) /\
  (forall item, suspensions (PydanticModels.create_item item) = 0) /\
  (forall db, suspensions (DependencyInjection.read_users db) = 0) /\
  (forall token, suspensions (Security.read_users_me token) = 0) /\
  (forall item, suspensions (SimpleAPI.create_item item) = 0) /\
  (forall item_id q, suspensions (SimpleAPI.read_item item_id q) = 0) /\
  suspensions DependencyInjection.get_db = 1 /\
  await DependencyInjection.get_db = Returned tt /\
  exists k,
    DependencyInjection.get_db = Yield (VStr "fake_database_session") k /\
    forall v, k (Send v) = Return tt.
Proof.
  repeat split.
  - intros item. rewrite create_item_response. reflexivity.
  - destruct get_db_steps as (k & Hk & Hsend & _). eauto.
Qed.

(** ** C2 *)

(** C2, as stated, fails: a scenario test has something to check.  Posting
    the widget (price 10.0, tax 2.5) to [create_item] gives back its name
    and a total of 12.5. *)
Lemma create_item_widget_scenario :
  scenario_passes SimpleAPI.create_item widget
    {[ "name" := VStr "Widget"; "price_with_tax" := VFloat (float_lit 25 (-1)) ]}.
Proof. vm_compute. reflexivity. Qed.

(** C2, amended: the functions of the page have behaviour a test suite can
    exercise.  A scenario: without tax the widget costs its price, 10.0.  An
    invariant: the response of [create_item] always has exactly the keys
    ["name"] and ["price_with_tax"].  A round trip: the [item_id] given to
    any of the three [read_item] is read back from its response, and the
    [db] given to [read_users] from its. *)
Theorem snippet_functions_are_testable :
  scenario_passes SimpleAPI.create_item
    {| SimpleAPI.name := "Widget"; SimpleAPI.description := Some "plain";
       SimpleAPI.price := float_lit 10 0; SimpleAPI.tax := None |}
    {[ "name" := VStr "Widget"; "price_with_tax" := VFloat (float_lit 10 0) ]} /\
  (forall item, exists d,
     await (SimpleAPI.create_item item) = Returned d /\
     dom d = {[ "name"; "price_with_tax" ]}) /\
  (forall item_id q, exists d,
     await (TypeHints.read_item item_id q) = Returned d /\
     d !! "item_id" = Some (VInt item_id)) /\
  (forall item_id, exists d,
     await (AsyncSupport.read_item item_id) = Returned d /\
     d !! "item_id" = Some (VInt item_id) /\ size d = 1) /\
  (forall item_id q, exists d,
     await (SimpleAPI.read_item item_id q) = Returned d /\
     d !! "item_id" = Some (VInt item_id)) /\
  (forall db, exists d,
     await (DependencyInjection.read_users (Some db)) = Returned d /\
     d !! "db" = Some db).
Proof.
  split; [vm_compute; reflexivity|].
  split.
  { intros item. rewrite create_item_response. eexists. split; reflexivity. }
  repeat split; intros; eexists; repeat split.
Qed.

(** ** C1 *)

(** C1, as stated, fails: the page does hold a definition of its own that is
    a record type.  The code block starting at line 52 declares the class
    [Item] with three typed fields. *)
Lemma page_declares_a_record_class :
  exists s c,
    In s page /\ first_line s = 52 /\ In (ClassDef c) (decls s) /\
    class_name c = "Item" /\
    map (fun f => (field_name f, field_type f)) (class_fields c) =
      [("name", AStr); ("price", AFloat); ("is_offer", ABool)].
Proof.
  exists (nth 2 page {| first_line := 0; language := ""; decls := [] |}), Item_model.
  cbn. intuition.
Qed.

(** C1, amended: the code fragments of the page hold definitions of their
    own: two record classes, both named [Item], both derived from the
    framework's [BaseModel], with three and four typed fields; and eight
    functions, of which all but [get_db] are registered with a route
    decorator of the external framework; the two shell fragments declare
    nothing. *)
Theorem page_declarations :
  map class_name classes = ["Item"; "Item"] /\
  map class_bases classes = [["BaseModel"]; ["BaseModel"]] /\
  map (fun c => map field_name (class_fields c)) classes =
    [["name"; "price"; "is_offer"]; ["name"; "description"; "price"; "tax"]] /\
  map (fun c => map field_type (class_fields c)) classes =
    [[AStr; AFloat; ABool]; [AStr; AStr; AFloat; AFloat]] /\
  map func_name functions =
    ["read_item"; "read_item"; "create_item"; "get_db"; "read_users";
     "read_users_me"; "create_item"; "read_item"] /\
  map func_name (filter (fun f => func_route f = None) functions) = ["get_db"] /\
  map func_name (filter (fun f => func_has_yield f = true) functions) = ["get_db"] /\
  concat (map decls (filter (fun s => language s = "bash") page)) = [].
Proof. repeat split. Qed.

(** ** C5 *)

(** C5, as stated, fails: the page defines a record with typed fields, and
    a function that works on it.  The class [Item] of the simple API example
    is one of the declared classes; its fields are annotated [str], [str],
    [float], [float], and [name] and [price], having no default, must be
    given.  [create_item] reads them: the gadget (price 20.0, no tax) is
    answered with its name and 20.0, and the same gadget with a tax of 2.5
    with 22.5. *)
Lemma create_item_reads_a_typed_record :
  In Item_simple classes /\
  map (fun f => (field_name f, field_type f)) (class_fields Item_simple) =
    [("name", AStr); ("description", AStr); ("price", AFloat); ("tax", AFloat)] /\
  required_fields Item_simple = ["name"; "price"] /\
  await (SimpleAPI.create_item gadget) =
    Returned {[ "name" := VStr "Gadget";
                "price_with_tax" := VFloat (float_lit 20 0) ]} /\
  await (SimpleAPI.create_item (with_tax (Some (float_lit 5 (-1))) gadget)) =
    Returned {[ "name" := VStr "Gadget";
                "price_with_tax" := VFloat (float_lit 45 (-1)) ]}.
Proof.
  split; [cbn; tauto|]. repeat split; vm_compute; reflexivity.
Qed.

(** C5, amended: besides prose, the page's data are code fragments that
    define the record class [Item] twice, with typed fields: [name: str]
    and [price: float] have no default and are the required fields of both
    classes; [is_offer: bool] in the first, [description: str] and
    [tax: float] in the second, default to [None].  The final [create_item]
    works on such a record: for every item its response holds the item's
    own name, and a total that is the item's price plus either the item's
    tax or [0.0]. *)
Theorem Item_records_are_typed_and_read :
  classes = [Item_model; Item_simple] /\
  map (fun f => (field_name f, field_type f, field_default f))
      (class_fields Item_model) =
    [("name", AStr, None); ("price", AFloat, None);
     ("is_offer", ABool, Some VNone)] /\
  map (fun f => (field_name f, field_type f, field_default f))
      (class_fields Item_simple) =
    [("name", AStr, None); ("description", AStr, Some VNone);
     ("price", AFloat, None); ("tax", AFloat, Some VNone)] /\
  required_fields Item_model = ["name"; "price"] /\
  required_fields Item_simple = ["name"; "price"] /\
  (forall item : SimpleAPI.Item, exists (d : gmap string value) (added : float),
     await (SimpleAPI.create_item item) = Returned d /\
     d !! "name" = Some (VStr (SimpleAPI.name item)) /\
     d !! "price_with_tax" =
       Some (VFloat (float_add (SimpleAPI.price item) added)) /\
     (SimpleAPI.tax item = Some added \/ added = S754_zero false)).
Proof.
  repeat split.
  intros item. rewrite create_item_response. do 2 eexists.
  split; [reflexivity|]. split; [reflexivity|]. split; [reflexivity|].
  destruct (SimpleAPI.tax item) as [t|]; [destruct (float_is_zero t)|]; auto.
Qed.

(** * Further properties of the snippets *)

(** ** More on binary64 addition *)

Lemma float_add_comm (x y : float) : float_add x y = float_add y x.
Proof.
  unfold float_add, SFadd.
  destruct x as [sx|sx| |sx mx ex], y as [sy|sy| |sy my ey]; try reflexivity.
  - by destruct sx, sy.
  - by destruct sx, sy.
  - rewrite (Z.min_comm ey ex), Z.add_comm. reflexivity.
Qed.

(** Rounding a magnitude never invents a sign: the shifted mantissa stays at
    or above zero, so the rounded result is a zero, a finite float or an
    infinity. *)
Lemma shr_1_nonneg (mrs : shr_record) :
  (0 <= shr_m mrs)%Z -> (0 <= shr_m (shr_1 mrs))%Z.
Proof.
  destruct mrs as [m r s]. cbn [shr_m]. intros Hm.
  destruct m as [|[p|p|]|p]; cbn; lia.
Qed.

Lemma iter_shr_1_nonneg (p : positive) : forall mrs : shr_record,
  (0 <= shr_m mrs)%Z -> (0 <= shr_m (SpecFloat.iter_pos shr_1 p mrs))%Z.
Proof.
  induction p as [p IH|p IH|]; intros mrs Hm; cbn.
  - apply IH, IH, shr_1_nonneg, Hm.
  - apply IH, IH, Hm.
  - apply shr_1_nonneg, Hm.
Qed.

Lemma shr_fexp_nonneg (m e : Z) (l : location) :
  (0 <= m)%Z -> (0 <= shr_m (shr_fexp prec emax m e l).1)%Z.
Proof.
  intros Hm. unfold shr_fexp, shr.
  assert (H0 : (0 <= shr_m (shr_record_of_loc m l))%Z).
  { destruct l as [|[| |]]; exact Hm. }
  destruct (fexp prec emax (Zdigits2 m + e) - e)%Z; cbn [fst]; try exact H0.
  apply iter_shr_1_nonneg, H0.
Qed.

Lemma round_nearest_even_nonneg (m : Z) (l : location) :
  (0 <= m)%Z -> (0 <= round_nearest_even m l)%Z.
Proof.
  intros Hm. destruct l as [|[| |]]; cbn; try lia.
  destruct (Z.even m); lia.
Qed.

Lemma binary_round_aux_not_nan (s : bool) (m e : Z) (l : location) :
  (0 <= m)%Z -> float_is_nan (binary_round_aux prec emax s m e l) = false.
Proof.
  intros Hm. unfold binary_round_aux.
  pose proof (shr_fexp_nonneg m e l Hm) as H1.
  destruct (shr_fexp prec emax m e l) as [mrs' e'] eqn:E1. cbn [fst] in H1.
  pose proof (shr_fexp_nonneg _ e' loc_Exact
                (round_nearest_even_nonneg _ (loc_of_shr_record mrs') H1)) as H2.
  destruct (shr_fexp prec emax
              (round_nearest_even (shr_m mrs') (loc_of_shr_record mrs')) e' loc_Exact)
    as [mrs'' e''] eqn:E2. cbn [fst] in H2.
  destruct (shr_m mrs'') as [|p|p]; [reflexivity| |lia].
  destruct (e'' <=? emax - prec)%Z; reflexivity.
Qed.

Lemma binary_normalize_not_nan (m e : Z) (b : bool) :
  float_is_nan (binary_normalize prec emax m e b) = false.
Proof.
  destruct m as [|p|p]; [reflexivity| |]; cbn [binary_normalize]; unfold binary_round;
    destruct (shl_align _ _ _) as [mz ez]; apply binary_round_aux_not_nan; lia.
Qed.

Lemma float_add_nan (x y : float) :
  float_is_nan (float_add x y) =
  float_is_nan x || float_is_nan y || opposite_infinities x y.
Proof.
  destruct x as [sx|sx| |sx mx ex], y as [sy|sy| |sy my ey]; try reflexivity;
    try (by destruct sx, sy).
  unfold float_add, SFadd. rewrite binary_normalize_not_nan. reflexivity.
Qed.

(** What is added to the price: the tax, or [0.0] for an absent or zero one. *)
Lemma float_add_zero_l (x y : float) :
  float_is_zero x = true -> float_is_zero y = false -> float_add x y = y.
Proof.
  destruct x as [sx|sx| |sx mx ex]; try discriminate.
  destruct y as [sy|sy| |sy my ey]; try discriminate; reflexivity.
Qed.

(** ** X1: [get_db] under any driver *)


(** ** X2: the response of [read_item] identifies the request *)

(** X2: the two [read_item] that take [q] agree on every input, and the
    response tells the requests apart: equal responses, of either handler
    or of one and the other, come from the same [item_id] and the same [q];
    in particular an omitted [q] is never taken for a supplied one, not
    even for the empty string. *)
Theorem read_item_response_identifies_request
    (item_id item_id' : Z) (q q' : option string) :
  TypeHints.read_item item_id q = SimpleAPI.read_item item_id q /\
  (await (TypeHints.read_item item_id q) = await (TypeHints.read_item item_id' q') ->
   item_id = item_id' /\ q = q') /\
  (await (SimpleAPI.read_item item_id q) = await (SimpleAPI.read_item item_id' q') ->
   item_id = item_id' /\ q = q') /\
  (await (TypeHints.read_item item_id q) = await (SimpleAPI.read_item item_id' q') ->
   item_id = item_id' /\ q = q') /\
  (exists d : gmap string value,
     await (SimpleAPI.read_item item_id None) = Returned d /\
     d !! "q" = Some VNone) /\
  (exists d : gmap string value,
     await (SimpleAPI.read_item item_id (Some "")) = Returned d /\
     d !! "q" = Some (VStr "")).
Proof.
  split; [reflexivity|].
  split; [|split; [|split; [|split; eexists; split; reflexivity]]]; intros H;
    apply (f_equal (fun o : outcome (gmap string value) =>
                      match o with
                      | Returned d => (d !! "item_id", d !! "q")
                      | Raised _ => (None, None)
                      end)) in H;
    vm_compute in H; destruct q, q'; split; congruence.
Qed.

Lemma read_item_response_identifies_request_witness :
  TypeHints.read_item 7 (Some "") = SimpleAPI.read_item 7 (Some "") /\
  await (TypeHints.read_item 7 (Some "")) = await (SimpleAPI.read_item 7 (Some "")) /\
  (7%Z = 7%Z /\ Some "" = Some "").
Proof.
  destruct (read_item_response_identifies_request 7 7 (Some "") (Some ""))
    as (Hagree & _ & _ & Hcross & _).
  split; [exact Hagree|]. split; [reflexivity|].
  apply Hcross. reflexivity.
Defined.

(** ** X3: [read_item] with and without [q] *)

(** X3: the [read_item] of feature 4 answers as the one of feature 2 does,
    less the key ["q"]: for the same [item_id] its response is the other
    response with ["q"] deleted, whatever [q] was. *)
Theorem read_item_without_q (item_id : Z) (q : option string) :
  exists d1 d2 : gmap string value,
    await (AsyncSupport.read_item item_id) = Returned d1 /\
    await (TypeHints.read_item item_id q) = Returned d2 /\
    d1 = delete "q" d2 /\
    d1 !! "q" = None /\
    d2 !! "q" = Some (of_optional VStr q) /\
    d1 !! "item_id" = d2 !! "item_id".
Proof. do 2 eexists. repeat split. Qed.

(** ** X4: an absent tax and a zero tax *)

(** X4: the response of [create_item] cannot tell a zero tax from an absent
    one: with a tax of [0.0] or [-0.0] the whole response is the one given
    without tax. *)
Theorem create_item_zero_tax_as_none (item : SimpleAPI.Item) (z : float) :
  float_is_zero z = true ->
  SimpleAPI.create_item (with_tax (Some z) item) =
  SimpleAPI.create_item (with_tax None item).
Proof.
  intros Hz. rewrite !create_item_response. cbn. rewrite Hz. reflexivity.
Qed.

Lemma create_item_zero_tax_as_none_witness :
  float_is_zero (S754_zero true) = true /\
  SimpleAPI.create_item (with_tax (Some (S754_zero true)) widget) =
  SimpleAPI.create_item (with_tax None widget).
Proof.
  split; [reflexivity|].
  apply (create_item_zero_tax_as_none widget (S754_zero true)). reflexivity.
Defined.

(** ** X5: when the total is not a number *)

(** X5: the total of [create_item] is [nan] exactly when the price is [nan],
    or the tax is, or the two are infinities of opposite sign; finite
    amounts never give [nan], however large. *)
Theorem create_item_total_nan (item : SimpleAPI.Item) :
  exists total : float,
    SimpleAPI.create_item item =
      Return {[ "name" := VStr (SimpleAPI.name item);
                "price_with_tax" := VFloat total ]} /\
    float_is_nan total =
      float_is_nan (SimpleAPI.price item) ||
      match SimpleAPI.tax item with
      | Some t => float_is_nan t || opposite_infinities (SimpleAPI.price item) t
      | None => false
      end.
Proof.
  eexists. split; [apply create_item_response|].
  rewrite float_add_nan.
  destruct (SimpleAPI.price item) as [sx|sx| |sx mx ex];
    destruct (SimpleAPI.tax item) as [[sy|sy| |sy my ey]|]; reflexivity.
Qed.

(** ** X6: price and tax are interchangeable *)

(** X6: [create_item] adds symmetrically: an item priced [p] with tax [t]
    and an item priced [t] with tax [p] get the same response, zeros
    included. *)
Theorem create_item_price_tax_swap (n : string) (d d' : option string) (p t : float) :
  SimpleAPI.create_item
    {| SimpleAPI.name := n; SimpleAPI.description := d;
       SimpleAPI.price := p; SimpleAPI.tax := Some t |} =
  SimpleAPI.create_item
    {| SimpleAPI.name := n; SimpleAPI.description := d';
       SimpleAPI.price := t; SimpleAPI.tax := Some p |}.
Proof.
  rewrite !create_item_response. cbn.
  destruct (float_is_zero t) eqn:Ht, (float_is_zero p) eqn:Hp.
  - destruct p as [[|]| | |]; try discriminate;
      destruct t as [[|]| | |]; try discriminate; reflexivity.
  - rewrite (float_add_zero_l t p Ht Hp).
    destruct (float_add_zero p) as [-> | [-> _]]; [reflexivity|discriminate].
  - rewrite (float_add_zero_l p t Hp Ht).
    destruct (float_add_zero t) as [-> | [-> _]]; [reflexivity|discriminate].
  - rewrite float_add_comm. reflexivity.
Qed.

(** ** X7: a free item *)

(** X7: when the price is a zero and the tax is not, the total is the tax
    itself, to the bit. *)
Theorem create_item_zero_price (item : SimpleAPI.Item) (t : float) :
  float_is_zero (SimpleAPI.price item) = true ->
  SimpleAPI.tax item = Some t ->
  float_is_zero t = false ->
  SimpleAPI.create_item item =
    Return {[ "name" := VStr (SimpleAPI.name item); "price_with_tax" := VFloat t ]}.
Proof.
  intros Hp Htax Ht. rewrite create_item_response, Htax, Ht.
  rewrite (float_add_zero_l _ t Hp Ht). reflexivity.
Qed.

Lemma create_item_zero_price_witness :
  float_is_zero (S754_zero false) = true /\
  SimpleAPI.create_item
    {| SimpleAPI.name := "Sample"; SimpleAPI.description := None;
       SimpleAPI.price := S754_zero false;
       SimpleAPI.tax := Some (float_lit 5 (-1)) |} =
    Return {[ "name" := VStr "Sample"; "price_with_tax" := VFloat (float_lit 5 (-1)) ]}.
Proof.
  split; [reflexivity|].
  apply (create_item_zero_price
           {| SimpleAPI.name := "Sample"; SimpleAPI.description := None;
              SimpleAPI.price := S754_zero false;
              SimpleAPI.tax := Some (float_lit 5 (-1)) |}
           (float_lit 5 (-1))); reflexivity.
Defined.

(** ** X8: [read_users] on what [get_db] yields *)

(** X8: given any value that [get_db] yields, [read_users] answers with the
    one-key dictionary holding the session string. *)
Theorem read_users_on_get_db (v : value) :
  In v (yields DependencyInjection.get_db) ->
  DependencyInjection.read_users (Some v) =
    Return {[ "db" := VStr "fake_database_session" ]}.
Proof.
  cbn. intros [<- | []]. reflexivity.
Qed.

Lemma read_users_on_get_db_witness :
  In (VStr "fake_database_session") (yields DependencyInjection.get_db) /\
  DependencyInjection.read_users (Some (VStr "fake_database_session")) =
    Return {[ "db" := VStr "fake_database_session" ]}.
Proof.
  split; [left; reflexivity|].
  apply (read_users_on_get_db (VStr "fake_database_session")). left. reflexivity.
Defined.

(** ** X11: routes and their parameters *)

(** X11: in every code block of the page the routes are distinct, and every
    parameter written between braces in a route path is a parameter of the
    handler the route decorates. *)
Theorem routes_bind_path_parameters :
  Forall (fun s => NoDup (snippet_routes s)) page /\
  Forall (fun f =>
            match func_route f with
            | Some (_, path) => Forall (fun p => In p (func_params f)) (path_params path)
            | None => True
            end) functions /\
  path_params "/items/{item_id}" = ["item_id"] /\
  path_params "/users/me" = [].
Proof.
  split; [|split; [|split; reflexivity]].
  - apply (bool_decide_unpack _). vm_compute. exact I.
  - repeat constructor; cbn; tauto.
Qed.
